(** * AutoBump (lib/pull-request/bump.ts)

    [AutoBump] is a thin configuration layer over [AutoPullRequest]: its
    constructor resolves five optional properties against their defaults
    and hands a freshly built property object to [new AutoPullRequest].
    That object is the only thing the constructor computes, so it is what
    this development models and reasons about. The two constructors it
    calls ([cdk.Construct] and [AutoPullRequest]) live in other files and
    are not modelled.

    The TypeScript types are erased at run time, so the properties are
    modelled as what they are when the code runs: a plain JavaScript
    object, that is a finite map from property names to values. *)

From Stdlib Require Import Ascii.
From stdpp Require Import gmap strings list fin_maps pretty.

Set Warnings "-register-all".

(** ** JavaScript values and the operators the constructor uses *)

Module JS.

(** The values that can sit in a property object: no functions, symbols
    or numbers, objects are plain (their prototype is [Object.prototype])
    and have no accessors. *)
Inductive JsVal : Type :=
  | JUndefined
  | JNull
  | JBool (b : bool)
  | JString (s : string)
  | JArray (elems : list JsVal)
  | JObject (fields : gmap string JsVal).

(** Evaluation either completes with a value or throws. The only
    exception the constructor's own code can raise is the [TypeError] of
    reading a property of [undefined] or [null]. *)
Inductive Exn : Type := TypeError.

Inductive Result (A : Type) : Type :=
  | Ok (a : A)
  | Throw (e : Exn).
Arguments Ok {A} a.
Arguments Throw {A} e.

(** [Result] is a monad for stdpp's [x ← r; k] notation. *)
#[export] Instance result_ret : MRet Result := fun A a => Ok a.
#[export] Instance result_bind : MBind Result := fun A B k r =>
  match r with
  | Ok a => k a
  | Throw e => Throw e
  end.

(** [undefined] and [null] are the two values on which [??] and [?.]
    give up. *)
Definition nullish (v : JsVal) : bool :=
  match v with
  | JUndefined | JNull => true
  | _ => false
  end.

(** [o.k] for an object [o] given by its fields: a missing property
    reads as [undefined]. *)
Definition get (o : gmap string JsVal) (k : string) : JsVal :=
  default JUndefined (o !! k).

(** [v.k]. It throws on [undefined] and [null]. A string, boolean or
    array has only inherited properties and indices; the constructor
    reads the names [name], [sha], [owner] and [repo], none of which is
    one of them, so those reads give [undefined]. *)
Definition member (v : JsVal) (k : string) : Result JsVal :=
  match v with
  | JUndefined | JNull => Throw TypeError
  | JObject o => Ok (get o k)
  | JBool _ | JString _ | JArray _ => Ok JUndefined
  end.

(** [v?.k]: as [v.k], but [undefined] instead of the [TypeError]. *)
Definition opt_member (v : JsVal) (k : string) : JsVal :=
  match v with
  | JUndefined | JNull => JUndefined
  | JObject o => get o k
  | JBool _ | JString _ | JArray _ => JUndefined
  end.

(** [a ?? b] when evaluating [b] cannot throw. *)
Definition coalesce (a b : JsVal) : JsVal :=
  if nullish a then b else a.

Infix "??" := coalesce (at level 45, left associativity).

(** The conversion a template literal applies to each substitution.
    An array is joined with commas, [undefined] and [null] elements
    giving the empty string. *)
Fixpoint toString (v : JsVal) : string :=
  match v with
  | JUndefined => "undefined"
  | JNull => "null"
  | JBool true => "true"
  | JBool false => "false"
  | JString s => s
  | JArray elems =>
      String.concat ","
        (map (fun e => if nullish e then "" else toString e) elems)
  | JObject _ => "[object Object]"
  end.

(** The properties [...v] contributes to an object literal: the own
    properties of an object, the indexed elements of an array, the
    indexed characters of a string (one per character of the model's
    string, which stands for a sequence of code units), nothing for the
    other values. *)
Definition indexed (elems : list JsVal) : gmap string JsVal :=
  list_to_map (imap (fun i e => (pretty i, e)) elems).

Fixpoint chars (s : string) : list JsVal :=
  match s with
  | EmptyString => []
  | String c s => JString (String c EmptyString) :: chars s
  end.

Definition spread (v : JsVal) : gmap string JsVal :=
  match v with
  | JObject o => o
  | JArray elems => indexed elems
  | JString s => indexed (chars s)
  | JUndefined | JNull | JBool _ => ∅
  end.

End JS.

Import JS.

(** ** The constructor *)

Module AutoBump.

(** The five [const]s of the constructor, in source order. *)
Definition branchName (props : gmap string JsVal) : JsVal :=
  opt_member (get props "head") "name" ?? JString "bump/$VERSION".

Definition bumpCommand (props : gmap string JsVal) : JsVal :=
  get props "bumpCommand" ?? JString "/bin/sh ./bump.sh".

Definition versionCommand (props : gmap string JsVal) : JsVal :=
  get props "versionCommand" ?? JString "git describe".

Definition title (props : gmap string JsVal) : JsVal :=
  get props "title" ?? JString "chore(release): $VERSION".

(** The template literal on the right of [props.body ??]. *)
Definition changelog (owner repo branch : string) : string :=
  "See [CHANGELOG](https://github.com/" +:+ owner +:+ "/" +:+ repo
    +:+ "/blob/" +:+ branch +:+ "/CHANGELOG.md)".

(** [??] evaluates its right operand only when the left one is nullish,
    and that operand reads [props.repo.owner] and [props.repo.repo]. *)
Definition body (props : gmap string JsVal) : Result JsVal :=
  if nullish (get props "body") then
    owner ← member (get props "repo") "owner";
    repo ← member (get props "repo") "repo";
    Ok (JString (changelog (toString owner) (toString repo)
                   (toString (branchName props))))
  else Ok (get props "body").

(** The object literal passed to [new AutoPullRequest(this, 'AutoBump', _)]:
    the spread of [props] first, then the six properties written after
    it, each replacing a property of the same name. *)
Definition constructor (props : gmap string JsVal)
  : Result (gmap string JsVal) :=
  body ← body props;
  Ok (<["condition" := JString "git describe --exact-match master"]>
     (<["exports" := JObject (<["VERSION" := versionCommand props]>
                                (spread (get props "exports")))]>
     (<["commands" := JArray [bumpCommand props]]>
     (<["body" := body]>
     (<["title" := title props]>
     (<["head" := JObject (<["source" := opt_member (get props "head") "sha"]>
                          (<["name" := branchName props]> ∅))]>
     (spread (JObject props)))))))).

End AutoBump.

Import AutoBump.

(** ** Inputs *)

(** The property type [AutoBumpProps], as far as bump.ts declares it:
    four optional strings and an optional head with two optional
    strings. *)
Definition is_string (v : JsVal) : bool :=
  match v with
  | JString _ => true
  | _ => false
  end.

Definition optional_string (v : JsVal) : bool :=
  match v with
  | JUndefined | JString _ => true
  | _ => false
  end.

Definition head_typed (v : JsVal) : bool :=
  match v with
  | JUndefined => true
  | JObject h => optional_string (get h "name") && optional_string (get h "sha")
  | _ => false
  end.

(** Modelled from the spec: the inherited properties [repo] and [exports]
    are declared by [AutoPullRequestProps] in pr.ts, not in bump.ts. The
    spec gives [repo] as a required [{ owner: string, repo: string }] and
    [exports] as an optional mapping from strings to strings. *)
Definition repo_typed (v : JsVal) : bool :=
  match v with
  | JObject r => is_string (get r "owner") && is_string (get r "repo")
  | _ => false
  end.

Definition exports_typed (v : JsVal) : bool :=
  match v with
  | JUndefined => true
  | JObject e => forallb (fun kv => is_string kv.2) (map_to_list e)
  | _ => false
  end.

Definition well_typed (props : gmap string JsVal) : bool :=
  optional_string (get props "bumpCommand")
  && optional_string (get props "versionCommand")
  && optional_string (get props "title")
  && optional_string (get props "body")
  && head_typed (get props "head")
  && repo_typed (get props "repo")
  && exports_typed (get props "exports").

(** The constructor completes exactly on these inputs (see
    [constructor_evaluates]): the only read that can throw is
    [props.repo.owner], and it is made only when there is no body. *)
Definition evaluates (props : gmap string JsVal) : bool :=
  negb (nullish (get props "body")) || negb (nullish (get props "repo")).

(** The empty request for the repository acme/widgets. *)
Definition acme_widgets : gmap string JsVal :=
  {[ "repo" := JObject (<["owner" := JString "acme"]>
                         {[ "repo" := JString "widgets" ]}) ]}.

(** A request that supplies every property that has a default. *)
Definition all_supplied : gmap string JsVal :=
  <["head" := JObject (<["name" := JString "release/$VERSION"]>
                      {[ "sha" := JString "0a1b2c3" ]})]>
  (<["bumpCommand" := JString "npm run bump"]>
  (<["versionCommand" := JString "node -p version"]>
  (<["title" := JString "release $VERSION"]>
  (<["body" := JString "Bumps to $VERSION"]>
  (<["exports" := JObject (<["VERSION" := JString "X"]>
                            {[ "STAGE" := JString "beta" ]})]>
   acme_widgets))))).

(** Requests whose head has only one of its two properties. *)
Definition sha_only : gmap string JsVal :=
  <["head" := JObject {[ "sha" := JString "0a1b2c3" ]}]> acme_widgets.

Definition name_only : gmap string JsVal :=
  <["head" := JObject {[ "name" := JString "release/$VERSION" ]}]> acme_widgets.

(** Two requests that carry a head of the shape [AutoPullRequest] takes,
    [{ name, source }], and differ in nothing but its name. *)
Definition raw_hotfix : gmap string JsVal :=
  <["head" := JObject (<["name" := JString "hotfix/$VERSION"]>
                      {[ "source" := JString "0a1b2c3" ]})]> acme_widgets.

Definition raw_release : gmap string JsVal :=
  <["head" := JObject (<["name" := JString "release/$VERSION"]>
                      {[ "source" := JString "0a1b2c3" ]})]> acme_widgets.

(** A request that also carries the three properties [AutoBumpProps]
    leaves out of [AutoPullRequestProps]. *)
Definition with_reserved : gmap string JsVal :=
  <["commands" := JArray [JString "echo caller"; JString "echo twice"]]>
  (<["condition" := JString "false"]>
  (<["head" := JObject (<["name" := JString "release/$VERSION"]>
                       (<["sha" := JString "0a1b2c3"]>
                       {[ "source" := JString "feedbee" ]}))]>
   all_supplied)).


(** Two requests that differ in their title and their two commands only. *)
Definition nightly : gmap string JsVal :=
  <["title" := JString "nightly $VERSION"]>
  (<["bumpCommand" := JString "make bump"]>
  (<["versionCommand" := JString "cat VERSION"]> all_supplied)).

(** ** Statements about the result *)

(** An output field holds the supplied value, and so does not hold the
    default unless that is what was supplied. *)
Definition replaces (field : option JsVal) (supplied default : JsVal) : Prop :=
  field = Some supplied ∧ (supplied ≠ default → field ≠ Some default).

(** [s.includes(t)]: the text [t] occurs somewhere in [s]. *)
Fixpoint includes (t s : string) : bool :=
  String.prefix t s ||
  match s with
  | EmptyString => false
  | String _ s' => includes t s'
  end.

Definition ascii_list : string → list ascii := String.list_ascii_of_string.

(** ** Facts about strings *)

Section text.
Implicit Types s t pre post : string.

Lemma append_assoc s t post : (s +:+ t) +:+ post = s +:+ t +:+ post.
Proof.
  induction s as [|x s IH]; [done|].
  change (String x ((s +:+ t) +:+ post) = String x (s +:+ t +:+ post)).
  by rewrite IH.
Qed.

Lemma ascii_list_app s t : ascii_list (s +:+ t) = ascii_list s ++ ascii_list t.
Proof. induction s as [|a s IH]; simpl; [done|]. by f_equal. Qed.

Lemma prefix_app t s : String.prefix t (t +:+ s) = true.
Proof.
  induction t as [|a t IH]; simpl; [by destruct s|].
  by destruct (ascii_dec a a).
Qed.

Lemma prefix_inv t s : String.prefix t s = true → ∃ post, s = t +:+ post.
Proof.
  revert s. induction t as [|a t IH]; intros [|b s]; simpl; try done.
  - by exists "".
  - by exists (String b s).
  - destruct (ascii_dec a b) as [->|]; [|done].
    intros [post ->]%IH. by exists post.
Qed.

Lemma includes_nil t : includes t "" = String.prefix t "".
Proof. apply orb_false_r. Qed.

Lemma includes_cons t a s :
  includes t (String a s) = String.prefix t (String a s) || includes t s.
Proof. done. Qed.

Lemma includes_prefix t s : String.prefix t s = true → includes t s = true.
Proof. destruct s; simpl; by intros ->. Qed.

Lemma includes_app pre t post : includes t (pre +:+ t +:+ post) = true.
Proof.
  induction pre as [|a pre IH].
  - change (includes t (t +:+ post) = true).
    apply includes_prefix, prefix_app.
  - change (includes t (String a (pre +:+ t +:+ post)) = true).
    rewrite includes_cons, IH. apply orb_true_r.
Qed.

Lemma includes_inv t s :
  includes t s = true → ∃ pre post, s = pre +:+ t +:+ post.
Proof.
  induction s as [|a s IH].
  - rewrite includes_nil. intros [post ->]%prefix_inv. by exists "", post.
  - rewrite includes_cons.
    intros [[post Hpost]%prefix_inv | (pre & post & ->)%IH]%orb_prop.
    + by exists "", post.
    + by exists (String a pre), post.
Qed.

Lemma includes_char (c : ascii) s :
  includes (String c "") s = false → c ∉ ascii_list s.
Proof.
  induction s as [|a s IH].
  - intros _. apply not_elem_of_nil.
  - rewrite includes_cons. intros [Hhd Htl]%orb_false_elim.
    apply not_elem_of_cons. split; [|by apply IH].
    intros ->. simpl in Hhd. destruct (ascii_dec a a); [|done].
    by destruct s.
Qed.

Lemma literal_free (c : ascii) s :
  bool_decide (c ∈ ascii_list s) = false → c ∉ ascii_list s.
Proof. by intros ?%bool_decide_eq_false. Qed.

(** An element that occurs once splits a list in one way only. *)
Lemma split_at_only {A} (x : A) (l1 l2 k1 k2 : list A) :
  x ∉ l1 → x ∉ l2 → l1 ++ x :: l2 = k1 ++ x :: k2 → l1 = k1.
Proof.
  revert k1. induction l1 as [|a l1 IH]; intros [|b k1] Hl1 Hl2; simpl.
  - done.
  - intros [= <- ->]. destruct Hl2. apply elem_of_app. right. left.
  - intros [= -> _]. destruct Hl1. left.
  - intros [= <- Heq]. f_equal. apply IH; [|done..].
    by apply not_elem_of_cons in Hl1 as [_ ?].
Qed.

(** The changelog link names its branch. *)
Lemma changelog_includes_branch owner repo branch :
  includes branch (changelog owner repo branch) = true.
Proof.
  unfold changelog.
  replace ("See [CHANGELOG](https://github.com/" +:+ owner +:+ "/" +:+ repo
             +:+ "/blob/" +:+ branch +:+ "/CHANGELOG.md)")
    with (("See [CHANGELOG](https://github.com/" +:+ owner +:+ "/" +:+ repo
             +:+ "/blob/") +:+ branch +:+ "/CHANGELOG.md)")
    by (by rewrite !append_assoc).
  apply includes_app.
Qed.

(** The link is injective in the branch. *)
Lemma changelog_inj owner repo branch branch' :
  changelog owner repo branch = changelog owner repo branch' → branch = branch'.
Proof.
  unfold changelog. intros H.
  repeat apply String.app_inj in H.
  apply (f_equal ascii_list) in H. rewrite !ascii_list_app in H.
  apply app_inj_2 in H as [H _]; [|done].
  apply (f_equal String.string_of_list_ascii) in H.
  unfold ascii_list in H. by rewrite !String.string_of_list_ascii_of_string in H.
Qed.

(** For an owner and a repository without a dollar sign, the only dollar
    sign of the link into [release/$VERSION] follows [release/]. *)
Lemma release_link_excludes_default owner repo :
  includes "$" owner = false → includes "$" repo = false →
  includes "bump/$VERSION" (changelog owner repo "release/$VERSION") = false.
Proof.
  intros Ho%includes_char Hr%includes_char.
  destruct (includes _ _) eqn:E; [|done]. exfalso.
  apply includes_inv in E as (pre & post & E).
  apply (f_equal ascii_list) in E. unfold changelog in E.
  rewrite !ascii_list_app in E.
  assert ((ascii_list "See [CHANGELOG](https://github.com/" ++ ascii_list owner
             ++ ascii_list "/" ++ ascii_list repo ++ ascii_list "/blob/release/")
            ++ "$"%char :: ascii_list "VERSION/CHANGELOG.md)"
          = (ascii_list pre ++ ascii_list "bump/")
            ++ "$"%char :: (ascii_list "VERSION" ++ ascii_list post)) as E'.
  { rewrite <- !app_assoc. exact E. }
  apply split_at_only in E'.
  - assert ((ascii_list "See [CHANGELOG](https://github.com/" ++ ascii_list owner
               ++ ascii_list "/" ++ ascii_list repo ++ ascii_list "/blob/rel")
              ++ ascii_list "ease/"
            = ascii_list pre ++ ascii_list "bump/") as E''.
    { rewrite <- !app_assoc. exact E'. }
    by apply app_inj_2 in E'' as [_ ?].
  - rewrite !not_elem_of_app. repeat split; try done; by apply literal_free.
  - by apply literal_free.
Qed.
End text.

(** ** Basic facts *)

Section facts.
Context (props : gmap string JsVal).

Lemma coalesce_defined a b : nullish a = false → a ?? b = a.
Proof. unfold coalesce. by intros ->. Qed.

Lemma coalesce_nullish a b : nullish a = true → a ?? b = b.
Proof. unfold coalesce. by intros ->. Qed.

Lemma member_defined v k :
  nullish v = false → member v k = Ok (opt_member v k).
Proof. by destruct v. Qed.

Lemma body_supplied :
  nullish (get props "body") = false → body props = Ok (get props "body").
Proof. unfold body. by intros ->. Qed.

Lemma body_derived :
  nullish (get props "body") = true →
  nullish (get props "repo") = false →
  body props =
    Ok (JString (changelog
          (toString (opt_member (get props "repo") "owner"))
          (toString (opt_member (get props "repo") "repo"))
          (toString (branchName props)))).
Proof.
  unfold body. intros -> Hrepo. by rewrite !member_defined.
Qed.

Lemma body_throws :
  nullish (get props "body") = true →
  nullish (get props "repo") = true →
  body props = Throw TypeError.
Proof. unfold body. intros ->. by destruct (get props "repo"). Qed.

Lemma body_evaluates : evaluates props = true → ∃ b, body props = Ok b.
Proof.
  unfold evaluates. intros H.
  destruct (nullish (get props "body")) eqn:Hb.
  - destruct (nullish (get props "repo")) eqn:Hr; [done|].
    eexists. by apply body_derived.
  - eexists. by apply body_supplied.
Qed.

(** What the constructor returns, when it returns. *)
Lemma constructor_Ok out :
  constructor props = Ok out →
  ∃ b, body props = Ok b ∧
    out =
      <["condition" := JString "git describe --exact-match master"]>
      (<["exports" := JObject (<["VERSION" := versionCommand props]>
                                 (spread (get props "exports")))]>
      (<["commands" := JArray [bumpCommand props]]>
      (<["body" := b]>
      (<["title" := title props]>
      (<["head" := JObject (<["source" := opt_member (get props "head") "sha"]>
                           (<["name" := branchName props]> ∅))]>
       props))))).
Proof.
  unfold constructor. destruct (body props) as [b|e]; simpl; [|done].
  intros [= <-]. by exists b.
Qed.

(** The constructor completes exactly when [evaluates] says so. *)
Lemma constructor_evaluates :
  evaluates props = true ↔ ∃ out, constructor props = Ok out.
Proof.
  split.
  - intros [b Hb]%body_evaluates. unfold constructor. rewrite Hb. by eexists.
  - intros [out (b & Hb & _)%constructor_Ok]. unfold evaluates.
    destruct (nullish (get props "body")) eqn:Hbody; [|done].
    destruct (nullish (get props "repo")) eqn:Hrepo; [|done].
    by rewrite body_throws in Hb.
Qed.

(** A well-typed request has a repository, so the constructor completes
    on it. *)
Lemma well_typed_evaluates : well_typed props = true → evaluates props = true.
Proof.
  unfold well_typed, evaluates, repo_typed.
  intros H. repeat (apply andb_prop in H as [H ?]).
  destruct (get props "repo"); try done. apply orb_true_r.
Qed.

(** The constructor has no error path on a well-typed request. *)
Lemma well_typed_total :
  well_typed props = true → ∃ out, constructor props = Ok out.
Proof. intros H. by apply constructor_evaluates, well_typed_evaluates. Qed.

(** In a well-typed request the resolved values are strings. *)
Lemma optional_string_coalesce v d :
  optional_string v = true → ∃ s, v ?? JString d = JString s.
Proof. destruct v; try done; by eexists. Qed.

Lemma well_typed_branchName :
  well_typed props = true → ∃ s, branchName props = JString s.
Proof.
  unfold well_typed, head_typed, branchName.
  intros H. repeat (apply andb_prop in H as [H ?]).
  destruct (get props "head") as [| | | | |h]; try done.
  - by eexists.
  - apply optional_string_coalesce. simpl. by destruct (optional_string (get h "name")).
Qed.
End facts.

(** The sample requests are well typed; the one that carries the
    reserved properties is so only as far as [AutoBumpProps] looks. *)
Example samples_well_typed :
  well_typed acme_widgets = true ∧ well_typed all_supplied = true ∧
  well_typed sha_only = true ∧ well_typed name_only = true ∧
  well_typed with_reserved = true.
Proof. repeat split; by vm_compute. Qed.

(** Without a repository and without a body the constructor throws. *)
Example no_repository_throws : constructor ∅ = Throw TypeError.
Proof. reflexivity. Qed.

(** The fields of a returned object, read off [constructor_Ok]. *)
Tactic Notation "returned" hyp(H) "as" ident(out) :=
  let b := fresh "b" in
  let Hb := fresh "Hbody" in
  let Hout := fresh "Hout" in
  apply constructor_evaluates in H as [out H];
  pose proof H as (b & Hb & Hout)%constructor_Ok.

(** ** Defaults *)

(** C1. For the empty request on the repository acme/widgets every
    resolved value is the documented default: branch name
    [bump/$VERSION], bump command [/bin/sh ./bump.sh], version command
    [git describe], title [chore(release): $VERSION], body the changelog
    link into branch [bump/$VERSION] of acme/widgets; and the object
    handed to [AutoPullRequest] holds exactly the repository, that head
    (with an undefined source), title and body, the one-element command
    list, the exports [{VERSION: git describe}] and the fixed condition. *)
Theorem default_completeness :
  branchName acme_widgets = JString "bump/$VERSION" ∧
  bumpCommand acme_widgets = JString "/bin/sh ./bump.sh" ∧
  versionCommand acme_widgets = JString "git describe" ∧
  title acme_widgets = JString "chore(release): $VERSION" ∧
  body acme_widgets =
    Ok (JString "See [CHANGELOG](https://github.com/acme/widgets/blob/bump/$VERSION/CHANGELOG.md)") ∧
  constructor acme_widgets =
    Ok (<["repo" := JObject (<["owner" := JString "acme"]>
                              {[ "repo" := JString "widgets" ]})]>
       (<["head" := JObject (<["name" := JString "bump/$VERSION"]>
                            {[ "source" := JUndefined ]})]>
       (<["title" := JString "chore(release): $VERSION"]>
       (<["body" := JString "See [CHANGELOG](https://github.com/acme/widgets/blob/bump/$VERSION/CHANGELOG.md)"]>
       (<["commands" := JArray [JString "/bin/sh ./bump.sh"]]>
       (<["exports" := JObject {[ "VERSION" := JString "git describe" ]}]>
        {[ "condition" := JString "git describe --exact-match master" ]})))))).
Proof. repeat split; by vm_compute. Qed.

(** ** Commands and condition *)

(** C5. Whenever the constructor completes (in particular on every
    well-typed request), [commands] is a list of length exactly 1 whose
    element is the resolved bump command: [props.bumpCommand] when that is
    supplied, [/bin/sh ./bump.sh] otherwise. *)
Theorem single_command (props : gmap string JsVal) :
  evaluates props = true →
  ∃ out cmds,
    constructor props = Ok out ∧
    out !! "commands" = Some (JArray cmds) ∧
    length cmds = 1 ∧
    cmds = [bumpCommand props] ∧
    bumpCommand props =
      (if nullish (get props "bumpCommand")
       then JString "/bin/sh ./bump.sh" else get props "bumpCommand").
Proof.
  intros H. returned H as out. exists out, [bumpCommand props].
  split; [done|]. subst out. split; [by simplify_map_eq|]. done.
Qed.

Lemma single_command_witness :
  evaluates all_supplied = true ∧
  ∃ out cmds,
    constructor all_supplied = Ok out ∧
    out !! "commands" = Some (JArray cmds) ∧
    length cmds = 1 ∧
    cmds = [bumpCommand all_supplied] ∧
    bumpCommand all_supplied =
      (if nullish (get all_supplied "bumpCommand")
       then JString "/bin/sh ./bump.sh" else get all_supplied "bumpCommand").
Proof. split; [reflexivity | apply (single_command all_supplied); reflexivity]. Defined.

(** C6. Whenever the constructor completes, [condition] is the literal
    [git describe --exact-match master], whatever the request and the
    repository are. *)
Theorem condition_fixed (props : gmap string JsVal) :
  evaluates props = true →
  ∃ out,
    constructor props = Ok out ∧
    out !! "condition" = Some (JString "git describe --exact-match master").
Proof.
  intros H. returned H as out. exists out. split; [done|]. subst out. by simplify_map_eq.
Qed.

Lemma condition_fixed_witness :
  evaluates all_supplied = true ∧
  ∃ out,
    constructor all_supplied = Ok out ∧
    out !! "condition" = Some (JString "git describe --exact-match master").
Proof. split; [reflexivity | apply (condition_fixed all_supplied); reflexivity]. Defined.

(** ** Head *)

(** C9. Whenever the constructor completes, [head.source] is
    [props.head?.sha] as it stands: the supplied value when the head has
    a [sha], and [undefined] when there is no head or the head has no
    [sha]. *)
Theorem head_source_passthrough (props : gmap string JsVal) :
  evaluates props = true →
  ∃ out hd,
    constructor props = Ok out ∧
    out !! "head" = Some (JObject hd) ∧
    (∀ h sha, get props "head" = JObject h → h !! "sha" = Some sha →
       hd !! "source" = Some sha) ∧
    (∀ h, get props "head" = JObject h → h !! "sha" = None →
       hd !! "source" = Some JUndefined) ∧
    (nullish (get props "head") = true → hd !! "source" = Some JUndefined).
Proof.
  intros H. returned H as out. exists out. eexists.
  split; [done|]. subst out. split; [by simplify_map_eq|].
  rewrite lookup_insert_eq. repeat split.
  - intros h sha -> Hsha. simpl. unfold get. by rewrite Hsha.
  - intros h -> Hsha. simpl. unfold get. by rewrite Hsha.
  - intros Hnull. by destruct (get props "head").
Qed.

Lemma head_source_passthrough_witness :
  evaluates all_supplied = true ∧
  ∃ out hd,
    constructor all_supplied = Ok out ∧
    out !! "head" = Some (JObject hd) ∧
    hd !! "source" = Some (JString "0a1b2c3").
Proof.
  split; [reflexivity|].
  destruct (head_source_passthrough all_supplied)
    as (out & hd & Hout & Hhead & Hsha & _); [reflexivity|].
  exists out, hd. split; [exact Hout|]. split; [exact Hhead|].
  eapply Hsha; reflexivity.
Defined.

(** C10. The two properties of the head are resolved independently of
    each other. For a head that has a [sha] but no [name], [head.name] is
    the default [bump/$VERSION] and [head.source] is that [sha]; for a
    head that has a [name] but no [sha], [head.name] is that name and
    [head.source] is [undefined]. *)
Theorem head_fields_independent (props h : gmap string JsVal) :
  evaluates props = true →
  get props "head" = JObject h →
  ∃ out hd,
    constructor props = Ok out ∧
    out !! "head" = Some (JObject hd) ∧
    (∀ sha, h !! "name" = None → h !! "sha" = Some sha →
       hd !! "name" = Some (JString "bump/$VERSION") ∧
       hd !! "source" = Some sha) ∧
    (∀ name, h !! "name" = Some name → nullish name = false →
       h !! "sha" = None →
       hd !! "name" = Some name ∧
       hd !! "source" = Some JUndefined).
Proof.
  intros H Hhead. returned H as out. exists out. eexists.
  split; [done|]. subst out. split; [by simplify_map_eq|].
  rewrite lookup_insert_eq, lookup_insert_ne, lookup_insert_eq by done.
  unfold branchName. rewrite Hhead. simpl. unfold get. split.
  - by intros sha -> ->.
  - intros name -> Hname ->. simpl. by rewrite coalesce_defined.
Qed.

Lemma head_fields_independent_witness :
  (evaluates sha_only = true ∧
   get sha_only "head" = JObject {[ "sha" := JString "0a1b2c3" ]} ∧
   ∃ out hd,
     constructor sha_only = Ok out ∧
     out !! "head" = Some (JObject hd) ∧
     hd !! "name" = Some (JString "bump/$VERSION") ∧
     hd !! "source" = Some (JString "0a1b2c3")) ∧
  (evaluates name_only = true ∧
   get name_only "head" = JObject {[ "name" := JString "release/$VERSION" ]} ∧
   ∃ out hd,
     constructor name_only = Ok out ∧
     out !! "head" = Some (JObject hd) ∧
     hd !! "name" = Some (JString "release/$VERSION") ∧
     hd !! "source" = Some JUndefined).
Proof.
  split; (split; [reflexivity|]); (split; [reflexivity|]).
  - destruct (head_fields_independent sha_only {[ "sha" := JString "0a1b2c3" ]})
      as (out & hd & Hout & Hhead & Hsha & _); [reflexivity..|].
    exists out, hd. split; [exact Hout|]. split; [exact Hhead|].
    apply Hsha; reflexivity.
  - destruct (head_fields_independent name_only
                {[ "name" := JString "release/$VERSION" ]})
      as (out & hd & Hout & Hhead & _ & Hname); [reflexivity..|].
    exists out, hd. split; [exact Hout|]. split; [exact Hhead|].
    apply Hname; reflexivity.
Defined.

(** ** Exports *)

(** C4. Whenever the constructor completes, [exports] is an object that
    binds [VERSION] to the resolved version command ([props.versionCommand]
    when supplied, [git describe] otherwise). A [VERSION] entry [X] of the
    caller's exports is replaced by it, and every other entry of the
    caller's exports is there unchanged (and nothing else is). *)
Theorem exports_reservation (props : gmap string JsVal) :
  evaluates props = true →
  ∃ out ex,
    constructor props = Ok out ∧
    out !! "exports" = Some (JObject ex) ∧
    ex !! "VERSION" = Some (versionCommand props) ∧
    versionCommand props =
      (if nullish (get props "versionCommand")
       then JString "git describe" else get props "versionCommand") ∧
    (∀ caller, get props "exports" = JObject caller →
       (∀ X, caller !! "VERSION" = Some X → X ≠ versionCommand props →
          ex !! "VERSION" ≠ Some X) ∧
       (∀ k, k ≠ "VERSION" → ex !! k = caller !! k)) ∧
    (nullish (get props "exports") = true →
       ex = {[ "VERSION" := versionCommand props ]}).
Proof.
  intros H. returned H as out. exists out. eexists.
  split; [done|]. subst out. split; [by simplify_map_eq|].
  rewrite lookup_insert_eq. split; [done|]. split; [done|]. split.
  - intros caller ->. split.
    + intros X _ HX [= Heq]. by apply HX.
    + intros k Hk. by rewrite lookup_insert_ne.
  - intros Hnull. by destruct (get props "exports").
Qed.

Lemma exports_reservation_witness :
  evaluates all_supplied = true ∧
  ∃ out ex,
    constructor all_supplied = Ok out ∧
    out !! "exports" = Some (JObject ex) ∧
    ex !! "VERSION" = Some (JString "node -p version") ∧
    ex !! "VERSION" ≠ Some (JString "X") ∧
    ex !! "STAGE" = Some (JString "beta").
Proof.
  split; [reflexivity|].
  destruct (exports_reservation all_supplied)
    as (out & ex & Hout & Hex & Hversion & _ & Hcaller & _); [reflexivity|].
  destruct (Hcaller (<["VERSION" := JString "X"]> {[ "STAGE" := JString "beta" ]}))
    as [Hreplaced Hkept]; [reflexivity|].
  exists out, ex. split; [exact Hout|]. split; [exact Hex|].
  split; [exact Hversion|]. split.
  - apply (Hreplaced (JString "X")); [reflexivity | discriminate].
  - rewrite (Hkept "STAGE"); [reflexivity | discriminate].
Defined.

(** ** Overrides *)

(** C2. Each property that has a default is resolved on its own: when
    the caller supplies the branch name, the bump command, the version
    command, the title or the body, the corresponding output field
    ([head.name], the element of [commands], [exports.VERSION], [title],
    [body]) is that value as it stands, and it is not the default unless
    the caller supplied exactly the default. Nothing is assumed about the
    other properties; a supplied body is used without the repository
    being read at all. *)
Theorem override_precedence (props : gmap string JsVal) :
  (∀ h name,
     evaluates props = true →
     get props "head" = JObject h → h !! "name" = Some name →
     nullish name = false →
     ∃ out hd,
       constructor props = Ok out ∧ out !! "head" = Some (JObject hd) ∧
       replaces (hd !! "name") name (JString "bump/$VERSION")) ∧
  (evaluates props = true →
   nullish (get props "bumpCommand") = false →
   ∃ out cmd,
     constructor props = Ok out ∧ out !! "commands" = Some (JArray [cmd]) ∧
     replaces (Some cmd) (get props "bumpCommand") (JString "/bin/sh ./bump.sh")) ∧
  (evaluates props = true →
   nullish (get props "versionCommand") = false →
   ∃ out ex,
     constructor props = Ok out ∧ out !! "exports" = Some (JObject ex) ∧
     replaces (ex !! "VERSION") (get props "versionCommand") (JString "git describe")) ∧
  (evaluates props = true →
   nullish (get props "title") = false →
   ∃ out,
     constructor props = Ok out ∧
     replaces (out !! "title") (get props "title")
       (JString "chore(release): $VERSION")) ∧
  (nullish (get props "body") = false →
   ∃ out,
     constructor props = Ok out ∧
     out !! "body" = Some (get props "body") ∧
     ∀ link, body (delete "body" props) = Ok link →
       replaces (out !! "body") (get props "body") link).
Proof.
  assert (∀ v d : JsVal, replaces (Some v) v d) as Hreplaces.
  { intros v d. split; [done|]. by intros Hne [= ->]. }
  repeat apply conj.
  - intros h name H Hhead Hname Hdef. returned H as out.
    exists out. eexists. split; [done|]. subst out.
    split; [by simplify_map_eq|].
    rewrite lookup_insert_ne, lookup_insert_eq by done.
    unfold branchName. rewrite Hhead. simpl. unfold get. rewrite Hname. simpl.
    rewrite coalesce_defined by done. apply Hreplaces.
  - intros H Hdef. returned H as out.
    exists out. eexists. split; [done|]. subst out.
    split; [by simplify_map_eq|].
    unfold bumpCommand. rewrite coalesce_defined by done. apply Hreplaces.
  - intros H Hdef. returned H as out.
    exists out. eexists. split; [done|]. subst out.
    split; [by simplify_map_eq|].
    rewrite lookup_insert_eq.
    unfold versionCommand. rewrite coalesce_defined by done. apply Hreplaces.
  - intros H Hdef. returned H as out.
    exists out. split; [done|]. subst out.
    replace (_ !! "title") with (Some (title props)) by (by simplify_map_eq).
    unfold title. rewrite coalesce_defined by done. apply Hreplaces.
  - intros Hdef.
    assert (evaluates props = true) as H by (unfold evaluates; by rewrite Hdef).
    returned H as out.
    exists out. split; [done|]. subst out.
    rewrite body_supplied in Hbody by done. injection Hbody as <-.
    replace (_ !! "body") with (Some (get props "body")) by (by simplify_map_eq).
    split; [done|]. intros link _. apply Hreplaces.
Qed.

Lemma override_precedence_witness :
  (∃ out hd,
     constructor all_supplied = Ok out ∧ out !! "head" = Some (JObject hd) ∧
     hd !! "name" = Some (JString "release/$VERSION")) ∧
  (∃ out,
     constructor all_supplied = Ok out ∧
     out !! "commands" = Some (JArray [JString "npm run bump"])) ∧
  (∃ out ex,
     constructor all_supplied = Ok out ∧ out !! "exports" = Some (JObject ex) ∧
     ex !! "VERSION" = Some (JString "node -p version")) ∧
  (∃ out,
     constructor all_supplied = Ok out ∧
     out !! "title" = Some (JString "release $VERSION")) ∧
  (∃ out,
     constructor (delete "repo" all_supplied) = Ok out ∧
     out !! "body" = Some (JString "Bumps to $VERSION")).
Proof.
  destruct (override_precedence all_supplied)
    as (Hname & Hbump & Hversion & Htitle & _).
  destruct (override_precedence (delete "repo" all_supplied))
    as (_ & _ & _ & _ & Hbody).
  repeat apply conj.
  - destruct (Hname (<["name" := JString "release/$VERSION"]>
                      {[ "sha" := JString "0a1b2c3" ]})
                    (JString "release/$VERSION"))
      as (out & hd & Hout & Hhead & Hfield & _); [reflexivity..|].
    exists out, hd. auto.
  - destruct Hbump as (out & cmd & Hout & Hcmds & Hfield & _); [reflexivity..|].
    exists out. split; [exact Hout|].
    injection Hfield as ->. exact Hcmds.
  - destruct Hversion as (out & ex & Hout & Hex & Hfield & _); [reflexivity..|].
    exists out, ex. auto.
  - destruct Htitle as (out & Hout & Hfield & _); [reflexivity..|].
    exists out. auto.
  - destruct Hbody as (out & Hout & Hfield & _); [reflexivity|].
    exists out. auto.
Defined.

(** ** Derived body *)

(** C3. When no body is supplied (and the request is otherwise
    well-formed: the repository's owner and name are strings, the head's
    name is a string or missing), the body is the changelog link
    [See [CHANGELOG](https://github.com/{owner}/{repo}/blob/{branch}/CHANGELOG.md)]
    whose branch is the resolved branch name, the one the output carries
    as [head.name]: the supplied [head.name] if there is one, else
    [bump/$VERSION]. In particular, with [head.name = release/$VERSION]
    the link goes through [release/$VERSION]: it contains that text, it is
    not the link through [bump/$VERSION], and the text [bump/$VERSION] does
    not occur in it at all when neither owner nor repository name has a
    dollar sign. *)
Theorem body_from_resolved_branch
    (props repository : gmap string JsVal) (owner repo : string) :
  nullish (get props "body") = true →
  get props "repo" = JObject repository →
  get repository "owner" = JString owner →
  get repository "repo" = JString repo →
  optional_string (opt_member (get props "head") "name") = true →
  ∃ out hd branch link,
    constructor props = Ok out ∧
    out !! "head" = Some (JObject hd) ∧
    hd !! "name" = Some (JString branch) ∧
    out !! "body" = Some (JString link) ∧
    link = "See [CHANGELOG](https://github.com/" +:+ owner +:+ "/" +:+ repo
             +:+ "/blob/" +:+ branch +:+ "/CHANGELOG.md)" ∧
    (∀ name, opt_member (get props "head") "name" = JString name →
       branch = name) ∧
    (opt_member (get props "head") "name" = JUndefined →
       branch = "bump/$VERSION") ∧
    (opt_member (get props "head") "name" = JString "release/$VERSION" →
       link = "See [CHANGELOG](https://github.com/" +:+ owner +:+ "/" +:+ repo
                +:+ "/blob/release/$VERSION/CHANGELOG.md)" ∧
       includes "release/$VERSION" link = true ∧
       link ≠ "See [CHANGELOG](https://github.com/" +:+ owner +:+ "/" +:+ repo
                +:+ "/blob/bump/$VERSION/CHANGELOG.md)" ∧
       (includes "$" owner = false → includes "$" repo = false →
          includes "bump/$VERSION" link = false)).
Proof.
  intros Hbody Hrepo Howner Hname Hhead.
  assert (∃ branch, branchName props = JString branch ∧
            (∀ name, opt_member (get props "head") "name" = JString name →
               branch = name) ∧
            (opt_member (get props "head") "name" = JUndefined →
               branch = "bump/$VERSION"))
    as (branch & Hbranch & Hsupplied & Hdefault).
  { unfold branchName.
    destruct (opt_member (get props "head") "name") as [| | |name| |];
      try done; eexists; (split; [reflexivity|]); split; try done.
    by intros ? [= ->]. }
  assert (evaluates props = true) as H.
  { unfold evaluates. rewrite Hrepo. apply orb_true_r. }
  returned H as out. rename Hbody0 into Hb.
  rewrite body_derived in Hb by (by rewrite ?Hrepo).
  rewrite Hrepo in Hb. simpl in Hb. rewrite Howner, Hname, Hbranch in Hb.
  injection Hb as <-.
  exists out. eexists. exists branch. eexists.
  split; [done|]. subst out. split; [by simplify_map_eq|].
  split; [by rewrite lookup_insert_ne, lookup_insert_eq, Hbranch|].
  split; [by simplify_map_eq|].
  split; [done|]. split; [done|]. split; [done|].
  intros ->%Hsupplied. split; [done|]. split; [|split].
  - apply changelog_includes_branch.
  - intros Heq.
    by pose proof (changelog_inj owner repo "release/$VERSION" "bump/$VERSION" Heq).
  - apply release_link_excludes_default.
Qed.

Lemma body_from_resolved_branch_witness :
  ∃ out,
    constructor name_only = Ok out ∧
    out !! "body" =
      Some (JString "See [CHANGELOG](https://github.com/acme/widgets/blob/release/$VERSION/CHANGELOG.md)") ∧
    includes "release/$VERSION"
      "See [CHANGELOG](https://github.com/acme/widgets/blob/release/$VERSION/CHANGELOG.md)"
      = true ∧
    includes "bump/$VERSION"
      "See [CHANGELOG](https://github.com/acme/widgets/blob/release/$VERSION/CHANGELOG.md)"
      = false.
Proof.
  destruct (body_from_resolved_branch name_only
              (<["owner" := JString "acme"]> {[ "repo" := JString "widgets" ]})
              "acme" "widgets")
    as (out & hd & branch & link & Hout & _ & _ & Hbody & _ & _ & _ & Hrelease);
    [reflexivity..|].
  destruct Hrelease as (-> & Hincludes & _ & Hexcludes); [reflexivity|].
  exists out. split; [exact Hout|]. split; [exact Hbody|].
  split; [exact Hincludes|]. apply Hexcludes; reflexivity.
Defined.

(** ** The version token *)

(** C8. The constructor does not touch the text of the branch name, the
    title or the body, and so leaves every [$VERSION] in them where it
    is. A supplied string is the output string, character for character,
    whatever it contains; a missing branch name or title is the default
    template with its [$VERSION]; a derived body embeds the resolved
    branch name unchanged in front of [/CHANGELOG.md)]. *)
Theorem version_token_verbatim (props : gmap string JsVal) :
  evaluates props = true →
  ∃ out hd,
    constructor props = Ok out ∧
    out !! "head" = Some (JObject hd) ∧
    (∀ name : string,
       opt_member (get props "head") "name" = JString name →
       hd !! "name" = Some (JString name)) ∧
    (nullish (opt_member (get props "head") "name") = true →
       hd !! "name" = Some (JString "bump/$VERSION")) ∧
    (∀ text : string,
       get props "title" = JString text →
       out !! "title" = Some (JString text)) ∧
    (nullish (get props "title") = true →
       out !! "title" = Some (JString "chore(release): $VERSION")) ∧
    (∀ text : string,
       get props "body" = JString text →
       out !! "body" = Some (JString text)) ∧
    (∀ branch : string,
       nullish (get props "body") = true →
       hd !! "name" = Some (JString branch) →
       ∃ front,
         out !! "body" = Some (JString (front +:+ branch +:+ "/CHANGELOG.md)"))).
Proof.
  intros H. returned H as out. exists out. eexists.
  split; [done|]. subst out. split; [by simplify_map_eq|].
  rewrite lookup_insert_ne, lookup_insert_eq by done.
  replace (_ !! "title") with (Some (title props)) by (by simplify_map_eq).
  replace (_ !! "body") with (Some b) by (by simplify_map_eq).
  unfold branchName, title. repeat apply conj.
  - by intros name ->.
  - intros Hnull. by rewrite coalesce_nullish.
  - by intros text ->.
  - intros Hnull. by rewrite coalesce_nullish.
  - intros text Htext. rewrite body_supplied in Hbody by (by rewrite Htext).
    by rewrite <- Htext; injection Hbody as <-.
  - intros branch Hnull [= Hbranch].
    assert (nullish (get props "repo") = false) as Hrepo.
    { destruct (nullish (get props "repo")) eqn:Hr; [|done].
      by rewrite body_throws in Hbody. }
    rewrite body_derived in Hbody by done. injection Hbody as <-.
    unfold branchName. rewrite Hbranch. simpl. unfold changelog.
    eexists. f_equal. f_equal. rewrite <- !append_assoc. reflexivity.
Qed.

Lemma version_token_verbatim_witness :
  evaluates all_supplied = true ∧
  ∃ out hd,
    constructor all_supplied = Ok out ∧
    out !! "head" = Some (JObject hd) ∧
    hd !! "name" = Some (JString "release/$VERSION") ∧
    out !! "title" = Some (JString "release $VERSION") ∧
    out !! "body" = Some (JString "Bumps to $VERSION").
Proof.
  split; [reflexivity|].
  destruct (version_token_verbatim all_supplied)
    as (out & hd & Hout & Hhead & Hname & _ & Htitle & _ & Hbody & _);
    [reflexivity|].
  exists out, hd. split; [exact Hout|]. split; [exact Hhead|].
  split; [apply Hname; reflexivity|].
  split; [apply Htitle; reflexivity | apply Hbody; reflexivity].
Defined.

(** ** Reserved properties *)

(** The constructor depends on its argument only through the properties
    other than [commands] and [condition], and through the head's [name]
    and [sha]. *)
Lemma constructor_agree (p q : gmap string JsVal) :
  (∀ k, k ≠ "commands" → k ≠ "condition" → k ≠ "head" → p !! k = q !! k) →
  opt_member (get p "head") "name" = opt_member (get q "head") "name" →
  opt_member (get p "head") "sha" = opt_member (get q "head") "sha" →
  constructor p = constructor q.
Proof.
  intros Hagree Hname Hsha.
  assert (∀ k, k ≠ "commands" → k ≠ "condition" → k ≠ "head" →
            get p k = get q k) as Hget.
  { intros k ? ? ?. unfold get. by rewrite Hagree. }
  assert (branchName p = branchName q) as Hbranch.
  { unfold branchName. by rewrite Hname. }
  assert (body p = body q) as Hbody.
  { unfold body. by rewrite (Hget "body"), (Hget "repo"), Hbranch. }
  unfold constructor, bumpCommand, versionCommand, title.
  rewrite Hbody, Hbranch, Hsha.
  rewrite (Hget "bumpCommand"), (Hget "versionCommand"), (Hget "title"),
    (Hget "exports") by done.
  destruct (body q) as [b|e]; simpl; [|done]. f_equal.
  apply map_eq. intros k. rewrite !lookup_insert.
  repeat case_decide; try done.
  apply Hagree; by intros ->.
Qed.

(** C7, as the code has it. [commands] and [condition] are never read,
    and of a supplied head only [name] and [sha] are: two requests that
    agree on every property other than [commands], [condition] and
    [head], and whose heads have the same [name] and the same [sha],
    give the same result. In that result the three properties are the
    ones the constructor builds (the one-element command list, the fixed
    condition, the head made of the resolved branch name and the [sha]),
    whatever the caller put there. *)
Theorem reserved_fields_overwritten (p q : gmap string JsVal) :
  evaluates p = true →
  (∀ k, k ≠ "commands" → k ≠ "condition" → k ≠ "head" → p !! k = q !! k) →
  opt_member (get p "head") "name" = opt_member (get q "head") "name" →
  opt_member (get p "head") "sha" = opt_member (get q "head") "sha" →
  ∃ out,
    constructor p = Ok out ∧
    constructor q = Ok out ∧
    out !! "commands" = Some (JArray [bumpCommand p]) ∧
    out !! "condition" = Some (JString "git describe --exact-match master") ∧
    out !! "head" =
      Some (JObject (<["source" := opt_member (get p "head") "sha"]>
                    (<["name" := branchName p]> ∅))).
Proof.
  intros H Hagree Hname Hsha. returned H as out. exists out.
  split; [done|]. split; [by rewrite <- (constructor_agree p q)|].
  subst out. by simplify_map_eq.
Qed.

Lemma reserved_fields_overwritten_witness :
  evaluates with_reserved = true ∧
  ∃ out,
    constructor with_reserved = Ok out ∧
    constructor all_supplied = Ok out ∧
    out !! "commands" = Some (JArray [JString "npm run bump"]) ∧
    out !! "condition" = Some (JString "git describe --exact-match master") ∧
    out !! "head" =
      Some (JObject (<["source" := JString "0a1b2c3"]>
                    (<["name" := JString "release/$VERSION"]> ∅))).
Proof.
  split; [reflexivity|].
  apply (reserved_fields_overwritten with_reserved all_supplied);
    [reflexivity | | reflexivity | reflexivity].
  intros k Hcommands Hcondition Hhead. unfold with_reserved.
  by rewrite !lookup_insert_ne.
Defined.

(** C7, as the spec has it, does not hold: the head is read. These two
    requests carry a head of the shape [AutoPullRequest] takes and differ
    in no other property, yet the results differ, because the name inside
    that head becomes the branch name (and goes into the derived body);
    the result also differs from that of the same request without a head.
    What is dropped from such a head is its [source]. *)
Lemma raw_head_is_read :
  (∀ k, k ≠ "commands" → k ≠ "condition" → k ≠ "head" →
     raw_hotfix !! k = raw_release !! k ∧ raw_hotfix !! k = acme_widgets !! k) ∧
  constructor raw_hotfix ≠ constructor raw_release ∧
  constructor raw_hotfix ≠ constructor acme_widgets ∧
  (∃ out hd,
     constructor raw_hotfix = Ok out ∧
     out !! "head" = Some (JObject hd) ∧
     hd !! "name" = Some (JString "hotfix/$VERSION") ∧
     hd !! "source" = Some JUndefined).
Proof.
  assert (∀ p q : gmap string JsVal,
            (match constructor p with Ok out => out !! "head" | Throw _ => None end)
            ≠ (match constructor q with Ok out => out !! "head" | Throw _ => None end) →
            constructor p ≠ constructor q) as Hhead.
  { intros p q Hne Heq. by rewrite Heq in Hne. }
  repeat apply conj.
  - intros k _ _ Hk. unfold raw_hotfix, raw_release.
    by rewrite !lookup_insert_ne.
  - apply Hhead. by vm_compute.
  - apply Hhead. by vm_compute.
  - eexists _, _. split; [reflexivity|]. by vm_compute.
Qed.

(** ** Further properties of the constructor *)



(** X2. Everything else in the request is forwarded. A property whose
    name is not one of the six the constructor writes ([head], [title],
    [body], [commands], [exports], [condition]) is in the result with the
    value the caller gave it, and the result has no property beyond those
    and the six. In particular a supplied [bumpCommand] or
    [versionCommand] is also handed on under its own name. *)
Theorem other_properties_forwarded (props : gmap string JsVal) :
  evaluates props = true →
  ∃ out,
    constructor props = Ok out ∧
    (∀ k, k ≠ "head" → k ≠ "title" → k ≠ "body" → k ≠ "commands" →
          k ≠ "exports" → k ≠ "condition" →
       out !! k = props !! k) ∧
    out !! "bumpCommand" = props !! "bumpCommand" ∧
    out !! "versionCommand" = props !! "versionCommand" ∧
    dom out =
      dom props ∪ {[ "head"; "title"; "body"; "commands"; "exports"; "condition" ]}.
Proof.
  intros H. returned H as out. exists out. split; [done|]. subst out.
  split; [|split; [|split]].
  - intros k ? ? ? ? ? ?. by rewrite !lookup_insert_ne.
  - by rewrite !lookup_insert_ne.
  - by rewrite !lookup_insert_ne.
  - rewrite !dom_insert_L. apply set_eq. intros k. set_unfold. tauto.
Qed.

Lemma other_properties_forwarded_witness :
  evaluates all_supplied = true ∧
  ∃ out,
    constructor all_supplied = Ok out ∧
    out !! "repo" = all_supplied !! "repo" ∧
    out !! "bumpCommand" = Some (JString "npm run bump") ∧
    out !! "versionCommand" = Some (JString "node -p version").
Proof.
  split; [reflexivity|].
  destruct (other_properties_forwarded all_supplied)
    as (out & Hout & Hother & Hbump & Hversion & _); [reflexivity|].
  exists out. split; [exact Hout|]. split; [|split].
  - apply Hother; discriminate.
  - exact Hbump.
  - exact Hversion.
Defined.

(** Every value of a typed exports object is a string. *)
Lemma exports_typed_lookup (e : gmap string JsVal) (k : string) (v : JsVal) :
  exports_typed (JObject e) = true → e !! k = Some v → is_string v = true.
Proof.
  simpl. intros Hall Hk.
  apply (proj1 (forallb_forall _ _) Hall (k, v)).
  by apply list_elem_of_In, elem_of_map_to_list.
Qed.

(** X3. A well-typed request gives a well-typed result: the branch name,
    the title, the body and the single command are strings, the source is
    a string or [undefined], and every value of [exports] is a string. *)
Theorem well_typed_result (props : gmap string JsVal) :
  well_typed props = true →
  ∃ out hd ex (name text link cmd : string) (source : JsVal),
    constructor props = Ok out ∧
    out !! "head" = Some (JObject hd) ∧
    hd !! "name" = Some (JString name) ∧
    hd !! "source" = Some source ∧ optional_string source = true ∧
    out !! "title" = Some (JString text) ∧
    out !! "body" = Some (JString link) ∧
    out !! "commands" = Some (JArray [JString cmd]) ∧
    out !! "exports" = Some (JObject ex) ∧
    (∀ k v, ex !! k = Some v → is_string v = true).
Proof.
  intros Htyped.
  pose proof (well_typed_evaluates props Htyped) as H.
  pose proof (well_typed_branchName props Htyped) as [name Hname].
  unfold well_typed in Htyped.
  repeat (apply andb_prop in Htyped as [Htyped ?]).
  destruct (optional_string_coalesce (get props "title")
              "chore(release): $VERSION") as [text Htext]; [done|].
  destruct (optional_string_coalesce (get props "bumpCommand")
              "/bin/sh ./bump.sh") as [cmd Hcmd]; [done|].
  destruct (optional_string_coalesce (get props "versionCommand")
              "git describe") as [version Hversion]; [done|].
  assert (∃ link, body props = Ok (JString link)) as [link Hlink].
  { unfold body. destruct (get props "body") eqn:Hb; try done; simpl.
    - destruct (get props "repo"); try done. simpl. by eexists.
    - by eexists. }
  returned H as out. rewrite Hlink in Hbody. injection Hbody as <-.
  change (title props = JString text) in Htext.
  change (bumpCommand props = JString cmd) in Hcmd.
  change (versionCommand props = JString version) in Hversion.
  exists out. eexists _, _. exists name, text, link, cmd. eexists.
  split; [done|]. subst out. rewrite Htext, Hcmd, Hversion, Hname.
  split; [by simplify_map_eq|].
  split; [by rewrite lookup_insert_ne, lookup_insert_eq|].
  split; [by rewrite lookup_insert_eq|]. split.
  { destruct (get props "head") as [| | | | |h]; try done. simpl.
    unfold head_typed in *. by destruct (optional_string (get h "name")). }
  split; [by simplify_map_eq|]. split; [by simplify_map_eq|].
  split; [by simplify_map_eq|]. split; [by simplify_map_eq|].
  intros k v. rewrite lookup_insert. case_decide.
  - by intros [= <-].
  - destruct (get props "exports") as [| | | | |e] eqn:He; try done.
    simpl. by apply exports_typed_lookup.
Qed.

Lemma well_typed_result_witness :
  well_typed all_supplied = true ∧
  ∃ out hd ex (name text link cmd : string) (source : JsVal),
    constructor all_supplied = Ok out ∧
    out !! "head" = Some (JObject hd) ∧
    hd !! "name" = Some (JString name) ∧
    hd !! "source" = Some source ∧ optional_string source = true ∧
    out !! "title" = Some (JString text) ∧
    out !! "body" = Some (JString link) ∧
    out !! "commands" = Some (JArray [JString cmd]) ∧
    out !! "exports" = Some (JObject ex) ∧
    (∀ k v, ex !! k = Some v → is_string v = true).
Proof.
  split; [reflexivity | apply (well_typed_result all_supplied); reflexivity].
Defined.



(** Whether the constructor completes, and the body it computes, depend
    on the request only through [body], [repo] and [head]. *)
Lemma body_agree (p q : gmap string JsVal) :
  get p "body" = get q "body" → get p "repo" = get q "repo" →
  branchName p = branchName q →
  body p = body q.
Proof. unfold body. by intros -> -> ->. Qed.

(** X5. The title and the two commands stay where they belong. Two
    requests that differ only in [title], [bumpCommand] and
    [versionCommand] give results that differ only there, in [commands]
    and in [exports], and their [exports] differ in [VERSION] only: head,
    body, condition and every forwarded property are the same. *)
Theorem title_and_commands_are_local (p q : gmap string JsVal) :
  evaluates p = true →
  (∀ k, k ≠ "title" → k ≠ "bumpCommand" → k ≠ "versionCommand" →
     p !! k = q !! k) →
  ∃ out_p out_q ex_p ex_q,
    constructor p = Ok out_p ∧
    constructor q = Ok out_q ∧
    (∀ k, k ≠ "title" → k ≠ "bumpCommand" → k ≠ "versionCommand" →
          k ≠ "commands" → k ≠ "exports" →
       out_p !! k = out_q !! k) ∧
    out_p !! "exports" = Some (JObject ex_p) ∧
    out_q !! "exports" = Some (JObject ex_q) ∧
    (∀ k, k ≠ "VERSION" → ex_p !! k = ex_q !! k).
Proof.
  intros H Hagree.
  assert (∀ k, k ≠ "title" → k ≠ "bumpCommand" → k ≠ "versionCommand" →
            get p k = get q k) as Hget.
  { intros k ? ? ?. unfold get. by rewrite Hagree. }
  assert (branchName p = branchName q) as Hbranch.
  { unfold branchName. by rewrite (Hget "head"). }
  assert (body p = body q) as Hbody_eq.
  { apply body_agree; [by apply Hget..|done]. }
  returned H as out.
  exists out. eexists. eexists _, _. split; [done|]. split.
  { unfold constructor. rewrite <- Hbody_eq, Hbody. reflexivity. }
  subst out. split; [|split; [by simplify_map_eq|split; [by simplify_map_eq|]]].
  - intros k ? ? ? ? ?. rewrite !lookup_insert.
    rewrite Hbranch, (Hget "head") by done.
    repeat case_decide; try done. by apply Hagree.
  - intros k Hk. rewrite !lookup_insert_ne by done.
    by rewrite (Hget "exports").
Qed.

Lemma title_and_commands_are_local_witness :
  evaluates nightly = true ∧
  ∃ out_p out_q,
    constructor nightly = Ok out_p ∧
    constructor all_supplied = Ok out_q ∧
    out_p !! "head" = out_q !! "head" ∧
    out_p !! "body" = out_q !! "body" ∧
    out_p !! "condition" = out_q !! "condition" ∧
    out_p !! "repo" = out_q !! "repo".
Proof.
  split; [reflexivity|].
  destruct (title_and_commands_are_local nightly all_supplied)
    as (out_p & out_q & ex_p & ex_q & Hp & Hq & Hsame & _); [reflexivity| |].
  { intros k Htitle Hbump Hversion. unfold nightly.
    by rewrite !lookup_insert_ne. }
  exists out_p, out_q. split; [exact Hp|]. split; [exact Hq|].
  repeat split; apply Hsame; discriminate.
Defined.

(** X6. The head reaches the head and the derived body, nothing else.
    Two requests that differ only in [head] give results that agree on
    every property other than [head] and [body], and on [body] as well
    when the caller supplied one. *)
Theorem head_is_local (p q : gmap string JsVal) :
  evaluates p = true →
  (∀ k, k ≠ "head" → p !! k = q !! k) →
  ∃ out_p out_q,
    constructor p = Ok out_p ∧
    constructor q = Ok out_q ∧
    (∀ k, k ≠ "head" → k ≠ "body" → out_p !! k = out_q !! k) ∧
    (nullish (get p "body") = false → out_p !! "body" = out_q !! "body").
Proof.
  intros H Hagree.
  assert (∀ k, k ≠ "head" → get p k = get q k) as Hget.
  { intros k ?. unfold get. by rewrite Hagree. }
  assert (evaluates q = true) as Hq.
  { unfold evaluates in *. by rewrite <- (Hget "body"), <- (Hget "repo"). }
  returned H as out_p. returned Hq as out_q.
  exists out_p, out_q. split; [done|]. split; [done|]. subst out_p out_q.
  split.
  - intros k ? ?. rewrite !lookup_insert.
    unfold bumpCommand, versionCommand, title.
    rewrite (Hget "bumpCommand"), (Hget "versionCommand"), (Hget "title"),
      (Hget "exports") by done.
    repeat case_decide; try done. by apply Hagree.
  - intros Hsupplied.
    rewrite body_supplied in Hbody by done.
    rewrite body_supplied in Hbody0 by (by rewrite <- (Hget "body")).
    injection Hbody as <-. injection Hbody0 as <-.
    rewrite !(lookup_insert_ne _ "condition"), !(lookup_insert_ne _ "exports"),
      !(lookup_insert_ne _ "commands"), !lookup_insert_eq by done.
    by rewrite (Hget "body").
Qed.

Lemma head_is_local_witness :
  evaluates with_reserved = true ∧
  ∃ out_p out_q,
    constructor with_reserved = Ok out_p ∧
    constructor (delete "head" with_reserved) = Ok out_q ∧
    out_p !! "title" = out_q !! "title" ∧
    out_p !! "commands" = out_q !! "commands" ∧
    out_p !! "exports" = out_q !! "exports" ∧
    out_p !! "body" = out_q !! "body".
Proof.
  split; [reflexivity|].
  destruct (head_is_local with_reserved (delete "head" with_reserved))
    as (out_p & out_q & Hp & Hq & Hsame & Hbody); [reflexivity| |].
  { intros k Hhead. by rewrite lookup_delete_ne. }
  exists out_p, out_q. split; [exact Hp|]. split; [exact Hq|].
  repeat split; try (apply Hsame; discriminate).
  apply Hbody. reflexivity.
Defined.
